(** * shop_agent.ipynb: the vector-search lookup and the fan-out tool

    A shallow embedding of the two functions of the notebook
    [examples/python/notebooks/shop_agent.ipynb] that do any work:

    - [call_vector_search], which builds a JSON payload, sends one HTTP POST
      and returns the parsed response, or [None] after a reported failure;
    - [find_shopping_items], which calls it once per query and concatenates
      the item lists.

    Python values are an inductive type and exceptions an error result.  The
    two effects of the code, the HTTP exchange and [print], are recorded in a
    trace that a small state-and-exception monad threads through the calls.
    The remote service is an oracle: from the number of exchanges made so far
    and the request it gives what [requests.post] observes.

    The notebook's test driver [test_agent] is embedded as well, over a run
    of the agent runtime given as the list of its steps.

    The file has three parts: the definitions (the model, then the
    vocabulary of the statements), the lemmas and theorems on the two
    functions, and further properties of the code. *)

From Stdlib Require Import List String Ascii ZArith QArith Bool Arith Lia.
Import ListNotations.

Local Open Scope string_scope.
Local Open Scope Z_scope.
Local Open Scope list_scope.

(** * Part 1: definitions *)

(** ** Python values *)

(** The values the code handles: what [response.json()] can produce and what
    [json.dumps] accepts.  A [dict] keeps its insertion order, so it is an
    association list; a float is the rational it denotes; a string is
    kept as the bytes of its UTF-8 encoding. *)
#[warnings="-register-all"]
Inductive pyval : Type :=
| PNone
| PBool (b : bool)
| PInt (n : Z)
| PFloat (q : Q)
| PStr (s : string)
| PList (l : list pyval)
| PDict (d : list (string * pyval)).

(** [d[k]] on the association list of a dict. *)
Fixpoint dict_get (k : string) (d : list (string * pyval)) : option pyval :=
  match d with
  | [] => None
  | (k', v) :: d' => if String.eqb k k' then Some v else dict_get k d'
  end.

(** ** Exceptions *)

(** What [requests.post] raises itself.  All of these are subclasses of
    [requests.exceptions.RequestException]. *)
Inductive transport_error : Type :=
| ConnectionError
| SSLError
| ProxyError
| ConnectTimeout
| ReadTimeout
| TooManyRedirects
| MissingSchema
| InvalidSchema
| InvalidURL
| ChunkedEncodingError
| ContentDecodingError.

(** The exceptions that occur in the two functions.  [HTTPError] is raised
    by [raise_for_status]; [JSONDecodeError] is
    [requests.exceptions.JSONDecodeError], which [response.json()] raises and
    which is a [RequestException] (requests 2.27 and later). *)
Inductive exn : Type :=
| TransportError (t : transport_error)
| HTTPError (status : Z)
| JSONDecodeError
| TypeError (msg : string)
| KeyError (key : string).

(** [isinstance(e, requests.exceptions.RequestException)]. *)
Definition is_RequestException (e : exn) : bool :=
  match e with
  | TransportError _ | HTTPError _ | JSONDecodeError => true
  | TypeError _ | KeyError _ => false
  end.

Inductive outcome (A : Type) : Type :=
| Return (a : A)
| Raise (e : exn).
Arguments Return {A} a.
Arguments Raise {A} e.

(** ** Subscripting and iterating Python values *)

(** [v[k]] with a string key. *)
Definition py_getitem (v : pyval) (k : string) : outcome pyval :=
  match v with
  | PDict d =>
      match dict_get k d with
      | Some x => Return x
      | None => Raise (KeyError k)
      end
  | PNone => Raise (TypeError "'NoneType' object is not subscriptable")
  | PBool _ => Raise (TypeError "'bool' object is not subscriptable")
  | PInt _ => Raise (TypeError "'int' object is not subscriptable")
  | PFloat _ => Raise (TypeError "'float' object is not subscriptable")
  | PStr _ => Raise (TypeError "string indices must be integers, not 'str'")
  | PList _ => Raise (TypeError "list indices must be integers or slices, not str")
  end.

(** Whether a byte continues a UTF-8 character: [10xxxxxx]. *)
Definition is_continuation (c : ascii) : bool :=
  match c with
  | Ascii _ _ _ _ _ _ b6 b7 => b7 && negb b6
  end.

(** The characters of a string: each is a leading byte with the
    continuation bytes that follow it. *)
Fixpoint utf8_chars (s : string) : list string :=
  match s with
  | EmptyString => []
  | String c rest =>
      let chars := utf8_chars rest in
      match rest, chars with
      | String c' _, ch :: others =>
          if is_continuation c' then String c ch :: others
          else String c EmptyString :: chars
      | _, _ => String c EmptyString :: chars
      end
  end.

(** [iter(v)] run to its end: the elements of a list, the characters of a
    string, the keys of a dict. *)
Definition py_iter (v : pyval) : outcome (list pyval) :=
  match v with
  | PList l => Return l
  | PStr s => Return (map PStr (utf8_chars s))
  | PDict d => Return (map (fun kv => PStr (fst kv)) d)
  | PNone => Raise (TypeError "'NoneType' object is not iterable")
  | PBool _ => Raise (TypeError "'bool' object is not iterable")
  | PInt _ => Raise (TypeError "'int' object is not iterable")
  | PFloat _ => Raise (TypeError "'float' object is not iterable")
  end.

(** [items.extend(v)]: the list after the call. *)
Definition list_extend (items : list pyval) (v : pyval) : outcome (list pyval) :=
  match py_iter v with
  | Return l => Return (items ++ l)
  | Raise e => Raise e
  end.

(** ** The HTTP exchange *)

(** The text [json.dumps] makes of a value, kept as the value it encodes. *)
Inductive json_text : Type :=
| json_dumps (v : pyval).

Record request : Type := {
  req_url : string;
  req_headers : list (string * string);
  req_data : json_text
}.

(** What the code reads of a [requests.Response]: the status code, and what
    [.json()] makes of the body: [Some v] when it returns [v], [None] when
    it raises [JSONDecodeError].  A body on which the parser gives up in
    another way (an integer literal past the digit limit, nesting past the
    recursion limit) is not among the responses modelled. *)
Record Response : Type := {
  status_code : Z;
  json_body : option pyval
}.

Inductive http_outcome : Type :=
| Fails (t : transport_error)
| Responds (r : Response).

(** A piece of an f-string: literal text, or a value to be formatted. *)
Inductive fpart : Type :=
| Lit (s : string)
| Fmt (v : pyval)
| FmtExn (e : exn).

Inductive event : Type :=
| EvRequest (r : request)
| EvResponse (o : http_outcome)
| EvPrint (line : list fpart).

(** The world around the code: how many exchanges the remote service has
    seen, and everything that has happened, oldest first. *)
Record world : Type := {
  calls : nat;
  trace : list event
}.

Definition remote : Type := nat -> request -> http_outcome.

(** ** The monad *)

Definition M (A : Type) : Type := world -> outcome A * world.

Definition ret {A} (a : A) : M A := fun w => (Return a, w).

Definition raise {A} (e : exn) : M A := fun w => (Raise e, w).

Definition bind {A B} (m : M A) (f : A -> M B) : M B :=
  fun w =>
    match m w with
    | (Return a, w') => f a w'
    | (Raise e, w') => (Raise e, w')
    end.

Definition lift {A} (o : outcome A) : M A := fun w => (o, w).

(** [try: body  except C as e: handler], the class [C] given by its
    instance test. *)
Definition try_except {A} (body : M A) (isinstance : exn -> bool)
    (handler : exn -> M A) : M A :=
  fun w =>
    match body w with
    | (Return a, w') => (Return a, w')
    | (Raise e, w') => if isinstance e then handler e w' else (Raise e, w')
    end.

Declare Scope py_scope.
Delimit Scope py_scope with py.
Notation "x <- m ;; k" := (bind m (fun x => k))
  (at level 61, m at next level, right associativity) : py_scope.
Notation "m ;; k" := (bind m (fun _ => k))
  (at level 61, right associativity) : py_scope.
Local Open Scope py_scope.

Definition emit (evs : list event) (w : world) : world :=
  {| calls := calls w; trace := trace w ++ evs |}.

Definition print (line : list fpart) : M unit :=
  fun w => (Return tt, emit [EvPrint line] w).

(** [requests.post(url, headers=headers, data=data)]: one blocking
    exchange.  The request goes out, the service answers, and the call
    returns the response or raises the transport failure, a
    [RequestException].  An exception of another class that the library lets
    out is not among the outcomes modelled. *)
Definition requests_post (server : remote) (url : string)
    (headers : list (string * string)) (data : json_text) : M Response :=
  fun w =>
    let req := {| req_url := url; req_headers := headers; req_data := data |} in
    let o := server (calls w) req in
    let w' := {| calls := S (calls w);
                 trace := trace w ++ [EvRequest req; EvResponse o] |} in
    match o with
    | Fails t => (Raise (TransportError t), w')
    | Responds r => (Return r, w')
    end.

(** [response.raise_for_status()]: an [HTTPError] for a 4xx or 5xx status,
    nothing for any other. *)
Definition raise_for_status (response : Response) : M unit :=
  if (400 <=? status_code response) && (status_code response <? 600)
  then raise (HTTPError (status_code response))
  else ret tt.

(** [response.json()]. *)
Definition response_json (response : Response) : M pyval :=
  match json_body response with
  | Some v => ret v
  | None => raise JSONDecodeError
  end.

(** ** The two functions of the notebook *)

(** [def call_vector_search(url, query, rows=None)]. *)
Definition call_vector_search (server : remote) (url query : string)
    (rows : pyval) : M pyval :=
  let headers := [("Content-Type", "application/json")] in
  let payload :=
    PDict [ ("query", PStr query);
            ("rows", rows);
            ("dataset_id", PStr "mercari3m_mm");
            ("use_dense", PBool true);
            ("use_sparse", PBool true);
            ("rrf_alpha", PFloat (1 # 2));
            ("use_rerank", PBool true) ] in
  try_except
    (response <- requests_post server url headers (json_dumps payload) ;;
     raise_for_status response ;;
     response_json response)
    is_RequestException
    (fun e =>
       print [Lit "Error calling the API: "; FmtExn e] ;;
       ret PNone).

(** The loop [for query in queries:] of [find_shopping_items], with the
    list [items] as built so far. *)
Fixpoint for_query (server : remote) (url : string) (queries : list string)
    (items : list pyval) : M (list pyval) :=
  match queries with
  | [] => ret items
  | query :: rest =>
      result <- call_vector_search server url query (PInt 3) ;;
      found <- lift (py_getitem result "items") ;;
      items' <- lift (list_extend items found) ;;
      for_query server url rest items'
  end.

(** [def find_shopping_items(queries: list[str]) -> Dict[str, str]]. *)
Definition find_shopping_items (server : remote) (queries : list string)
    : M pyval :=
  let url := "https://www.ac0.cloudadvocacyorg.joonix.net/api/query" in
  items <- for_query server url queries [] ;;
  print [Lit "-----"] ;;
  print [Lit "User queries: "; Fmt (PList (map PStr queries))] ;;
  print [Lit "Found: "; Fmt (PInt (Z.of_nat (List.length items))); Lit " items"] ;;
  print [Lit "-----"] ;;
  ret (PList items).

(** ** One lookup, as a function of the service's answer *)

(** The request of the external interface: a POST to [url] with the one
    header and the seven fields of the body. *)
Definition search_request (url query : string) (rows : pyval) : request :=
  {| req_url := url;
     req_headers := [("Content-Type", "application/json")];
     req_data :=
       json_dumps
         (PDict [ ("query", PStr query);
                  ("rows", rows);
                  ("dataset_id", PStr "mercari3m_mm");
                  ("use_dense", PBool true);
                  ("use_sparse", PBool true);
                  ("rrf_alpha", PFloat (1 # 2));
                  ("use_rerank", PBool true) ]) |}.

(** The exception caught inside [call_vector_search], if any. *)
Definition lookup_error (o : http_outcome) : option exn :=
  match o with
  | Fails t => Some (TransportError t)
  | Responds r =>
      if (400 <=? status_code r) && (status_code r <? 600)
      then Some (HTTPError (status_code r))
      else match json_body r with
           | Some _ => None
           | None => Some JSONDecodeError
           end
  end.

(** The value [call_vector_search] returns. *)
Definition lookup_value (o : http_outcome) : pyval :=
  match o with
  | Fails _ => PNone
  | Responds r =>
      if (400 <=? status_code r) && (status_code r <? 600)
      then PNone
      else match json_body r with
           | Some v => v
           | None => PNone
           end
  end.

Definition error_line (e : exn) : event :=
  EvPrint [Lit "Error calling the API: "; FmtExn e].

(** The events of one lookup: the exchange, then the report of a failure. *)
Definition lookup_events (req : request) (o : http_outcome) : list event :=
  EvRequest req :: EvResponse o ::
  match lookup_error o with
  | Some e => [error_line e]
  | None => []
  end.

(** ** The loop, as a function of the service's answers *)

Definition endpoint : string :=
  "https://www.ac0.cloudadvocacyorg.joonix.net/api/query".

(** The request [find_shopping_items] is to send for [query]. *)
Definition item_request (query : string) : request :=
  search_request endpoint query (PInt 3).

(** The events of the lookups for [queries], the first one being exchange
    number [n] of the service. *)
Fixpoint loop_events (server : remote) (n : nat) (queries : list string)
    : list event :=
  match queries with
  | [] => []
  | query :: rest =>
      lookup_events (item_request query) (server n (item_request query))
      ++ loop_events server (S n) rest
  end.

(** How the loop ends, and how many lookups it makes on the way. *)
Fixpoint loop_result (server : remote) (n : nat) (queries : list string)
    (items : list pyval) : outcome (list pyval) * nat :=
  match queries with
  | [] => (Return items, 0%nat)
  | query :: rest =>
      match py_getitem (lookup_value (server n (item_request query))) "items" with
      | Raise e => (Raise e, 1%nat)
      | Return found =>
          match list_extend items found with
          | Raise e => (Raise e, 1%nat)
          | Return items' =>
              let (r, k) := loop_result server (S n) rest items' in (r, S k)
          end
      end
  end.

(** The four lines printed after the loop. *)
Definition summary (queries : list string) (items : list pyval) : list event :=
  [ EvPrint [Lit "-----"];
    EvPrint [Lit "User queries: "; Fmt (PList (map PStr queries))];
    EvPrint [Lit "Found: "; Fmt (PInt (Z.of_nat (List.length items))); Lit " items"];
    EvPrint [Lit "-----"] ].

(** ** Reading a trace *)

(** The requests sent, oldest first. *)
Fixpoint requests_in (evs : list event) : list request :=
  match evs with
  | [] => []
  | EvRequest r :: evs' => r :: requests_in evs'
  | _ :: evs' => requests_in evs'
  end.

(** The lines printed, oldest first. *)
Fixpoint prints_in (evs : list event) : list (list fpart) :=
  match evs with
  | [] => []
  | EvPrint line :: evs' => line :: prints_in evs'
  | _ :: evs' => prints_in evs'
  end.

Definition is_http (ev : event) : bool :=
  match ev with
  | EvRequest _ | EvResponse _ => true
  | EvPrint _ => false
  end.

(** The HTTP exchanges alone. *)
Definition http_events (evs : list event) : list event := filter is_http evs.

(** A field of the JSON object a request carries. *)
Definition request_field (k : string) (r : request) : option pyval :=
  match req_data r with
  | json_dumps (PDict d) => dict_get k d
  | json_dumps _ => None
  end.

(** Strictly sequential exchanges for [queries], the first being exchange
    [n]: every request is followed by its own response before the next
    request goes out. *)
Fixpoint exchanges (server : remote) (n : nat) (queries : list string)
    : list event :=
  match queries with
  | [] => []
  | query :: rest =>
      EvRequest (item_request query)
      :: EvResponse (server n (item_request query))
      :: exchanges server (S n) rest
  end.

(** ** The conditions of the statements *)



(** A lookup that succeeds with the item list [l]: a 2xx response whose
    body is a JSON object with the list [l] under ["items"]. *)
Definition succeeds_with (o : http_outcome) (l : list pyval) : Prop :=
  exists r d,
    o = Responds r /\
    200 <= status_code r < 300 /\
    json_body r = Some (PDict d) /\
    dict_get "items" d = Some (PList l).

(** What the lookup of [find_shopping_items] for [query] returns when it is
    exchange number [n] of the service. *)
Definition lookup (server : remote) (n : nat) (query : string) : outcome pyval :=
  fst (call_vector_search server endpoint query (PInt 3)
         {| calls := n; trace := [] |}).

(** A lookup result the loop cannot take items from: [None], or a response
    without the ["items"] key. *)
Definition lacks_items (v : pyval) : Prop :=
  v = PNone \/ exists d, v = PDict d /\ dict_get "items" d = None.

(** The errors of an unguarded access: a [TypeError], or the [KeyError] of
    the key ["items"]. *)
Definition access_error (e : exn) : Prop :=
  (exists msg, e = TypeError msg) \/ e = KeyError "items".

(** ** Worlds and services of the examples *)

Definition w0 : world := {| calls := 0; trace := [] |}.

Definition item (name : string) : pyval :=
  PDict [ ("name", PStr name);
          ("description", PStr "a cup");
          ("image_url", PStr "https://example.com/cup.jpg") ].

Definition ok_response (items : list pyval) : http_outcome :=
  Responds {| status_code := 200;
              json_body := Some (PDict [("items", PList items)]) |}.

Definition cups : list string :=
  ["Cups with dancing people"; "Cups with dancing animals"].

Definition people_cups : list pyval := [item "p1"; item "p2"; item "p3"].

Definition animal_cups : list pyval := [item "a1"; item "a2"; item "a3"].

(** Two mocked responses of three items each. *)
Definition cups_server : remote :=
  fun n _ =>
    match n with
    | O => ok_response people_cups
    | _ => ok_response animal_cups
    end.

(** A service that answers every request with HTTP 500. *)
Definition failing_server : remote :=
  fun _ _ => Responds {| status_code := 500; json_body := None |}.

(** A service that answers with 300 Multiple Choices and a JSON body. *)
Definition choices_server : remote :=
  fun _ _ => Responds {| status_code := 300;
                         json_body := Some (PDict [("items", PList [])]) |}.

(** A service whose answers have no ["items"] key. *)
Definition no_items_server : remote :=
  fun _ _ => Responds {| status_code := 200;
                         json_body := Some (PDict [("error", PStr "bad query")]) |}.

(** ** Conditions of the further properties *)

(** A lookup result the loop takes the items [l] from: it has an ["items"]
    entry, and iterating that entry gives [l]. *)
Definition yields (o : outcome pyval) (l : list pyval) : Prop :=
  exists v x,
    o = Return v /\
    py_getitem v "items" = Return x /\
    py_iter x = Return l.

(** The two characters U+65E5 U+672C, three bytes each in UTF-8. *)
Definition two_kanji : string :=
  String "230" (String "151" (String "165"
    (String "230" (String "156" (String "172" EmptyString))))).

(** A service that answers with that string under ["items"]. *)
Definition kanji_items_server : remote :=
  fun _ _ => Responds {| status_code := 200;
                         json_body := Some (PDict [("items", PStr two_kanji)]) |}.

(** A service that answers with [null] under ["items"]. *)
Definition null_items_server : remote :=
  fun _ _ => Responds {| status_code := 200;
                         json_body := Some (PDict [("items", PNone)]) |}.

(** A service whose first answer is fine and whose later ones are 500s. *)
Definition flaky_server : remote :=
  fun n req =>
    match n with
    | O => ok_response people_cups
    | _ => failing_server n req
    end.

(** ** The test driver of the notebook *)

(** What the code reads of [google.genai.types.Part],
    [google.genai.types.Content] and [google.adk.events.Event]. *)
Record Part : Type := {
  text : option string
}.

Record Content : Type := {
  role : string;
  parts : option (list Part)
}.

Record Event : Type := {
  is_final_response : bool;
  content : option Content
}.

Definition APP_NAME : string := "shop_concierge_app".
Definition USER_ID : string := "user_1".
Definition SESSION_ID : string := "session_001".

(** A run of the agent, as [runner.run_async] yields it: one step per
    event.  A step does what the runtime does before it yields (tool calls
    and their output among it) and may raise. *)
Definition agent_run : Type := list (M Event).

(** [Runner(agent, app_name, session_service).run_async(user_id,
    session_id, new_message)]: the runtime is not part of the notebook. *)
Definition runtime (Agent : Type) : Type :=
  Agent -> string -> string -> string -> Content -> agent_run.

(** The value an f-string formats for a text that may be [None]. *)
Definition py_text (t : option string) : pyval :=
  match t with
  | Some s => PStr s
  | None => PNone
  end.

(** The loop [async for event in ...] of [test_agent]: the first final
    response sets the text, if it has content with parts, and ends the
    loop. *)
Fixpoint async_for (events : agent_run) (final_response_text : option string)
    : M (option string) :=
  match events with
  | [] => ret final_response_text
  | next :: rest =>
      event <- next ;;
      if is_final_response event
      then ret match content event with
               | Some c =>
                   match parts c with
                   | Some (p :: _) => text p
                   | Some [] | None => final_response_text
                   end
               | None => final_response_text
               end
      else async_for rest final_response_text
  end.

(** [async def test_agent(query, agent)]. *)
Definition test_agent {Agent : Type} (run_async : runtime Agent)
    (query : string) (agent : Agent) : M pyval :=
  print [Lit (String "010"%char ">>> User Query: "); Fmt (PStr query)] ;;
  let runner := run_async agent APP_NAME in
  let content := {| role := "user"; parts := Some [ {| text := Some query |} ] |} in
  final_response_text <- async_for (runner USER_ID SESSION_ID content) None ;;
  print [Lit "<<< Agent Response: "; Fmt (py_text final_response_text)] ;;
  ret PNone.

(** The text a final response gives: that of its first part, if it has
    content with parts. *)
Definition response_text (event : Event) : option string :=
  match content event with
  | Some c =>
      match parts c with
      | Some (p :: _) => text p
      | Some [] | None => None
      end
  | None => None
  end.

(** Whether the loop over [events] is left before their end, by a final
    response or by an exception. *)
Fixpoint ends_early (events : agent_run) (w : world) : bool :=
  match events with
  | [] => false
  | next :: rest =>
      match next w with
      | (Return event, w') =>
          if is_final_response event then true else ends_early rest w'
      | (Raise _, _) => true
      end
  end.

(** A runtime that plays the same run whatever it is asked. *)
Definition playing {Agent : Type} (events : agent_run) : runtime Agent :=
  fun _ _ _ _ _ => events.

Definition final_event (t : string) : Event :=
  {| is_final_response := true;
     content := Some {| role := "model"; parts := Some [ {| text := Some t |} ] |} |}.

Definition partial_event : Event :=
  {| is_final_response := false; content := None |}.

(** A step of a run in which the runtime calls the tool and lets its
    exception out. *)
Definition tool_step (server : remote) (queries : list string) : M Event :=
  find_shopping_items server queries ;;
  ret partial_event.

(** * Part 2: lemmas and theorems *)

(** ** The code against its summaries *)

Lemma call_vector_search_run (server : remote) (url query : string)
    (rows : pyval) (w : world) :
  call_vector_search server url query rows w =
    (Return (lookup_value (server (calls w) (search_request url query rows))),
     {| calls := S (calls w);
        trace := trace w ++
                 lookup_events (search_request url query rows)
                               (server (calls w) (search_request url query rows)) |}).
Proof.
  unfold call_vector_search, try_except, bind, requests_post, raise_for_status,
    response_json, lookup_events, lookup_error, lookup_value, error_line.
  cbv zeta. fold (search_request url query rows).
  destruct (server (calls w) (search_request url query rows)) as [t | r]; cbn.
  - unfold print, ret, bind, emit; cbn. now rewrite <- app_assoc.
  - destruct ((400 <=? status_code r) && (status_code r <? 600)); cbn.
    + unfold print, ret, bind, emit; cbn. now rewrite <- app_assoc.
    + destruct (json_body r); cbn.
      * reflexivity.
      * unfold print, ret, bind, emit; cbn. now rewrite <- app_assoc.
Qed.

Lemma for_query_run (server : remote) (queries : list string) :
  forall (items : list pyval) (w : world),
    for_query server endpoint queries items w =
      (fst (loop_result server (calls w) queries items),
       {| calls := calls w + snd (loop_result server (calls w) queries items);
          trace := trace w ++
                   loop_events server (calls w)
                     (firstn (snd (loop_result server (calls w) queries items))
                             queries) |}).
Proof.
  induction queries as [| query rest IH]; intros items w; cbn [for_query].
  - cbn. unfold ret. destruct w as [c t]; cbn.
    now rewrite Nat.add_0_r, app_nil_r.
  - unfold bind at 1. rewrite call_vector_search_run.
    fold (item_request query).
    cbn [loop_result].
    destruct (py_getitem (lookup_value (server (calls w) (item_request query))) "items")
      as [found | e]; unfold bind, lift; cbn.
    + destruct (list_extend items found) as [items' | e]; cbn.
      * rewrite IH; cbn.
        destruct (loop_result server (S (calls w)) rest items') as [r k]; cbn.
        rewrite <- app_assoc, Nat.add_succ_r. reflexivity.
      * now rewrite Nat.add_1_r, app_nil_r.
    + now rewrite Nat.add_1_r, app_nil_r.
Qed.

Lemma find_shopping_items_run (server : remote) (queries : list string) (w : world) :
  find_shopping_items server queries w =
    match loop_result server (calls w) queries [] with
    | (Return items, k) =>
        (Return (PList items),
         {| calls := calls w + k;
            trace := trace w ++
                     loop_events server (calls w) (firstn k queries) ++
                     summary queries items |})
    | (Raise e, k) =>
        (Raise e,
         {| calls := calls w + k;
            trace := trace w ++ loop_events server (calls w) (firstn k queries) |})
    end.
Proof.
  unfold find_shopping_items. cbv zeta. fold endpoint.
  unfold bind at 1. rewrite for_query_run.
  destruct (loop_result server (calls w) queries []) as [[items | e] k]; cbn.
  - unfold bind, print, ret, emit, summary; cbn.
    now rewrite <- !app_assoc.
  - reflexivity.
Qed.

Lemma lookup_eq (server : remote) (n : nat) (query : string) :
  lookup server n query = Return (lookup_value (server n (item_request query))).
Proof. unfold lookup. now rewrite call_vector_search_run. Qed.

(** ** Traces *)

Lemma requests_in_app (evs1 evs2 : list event) :
  requests_in (evs1 ++ evs2) = requests_in evs1 ++ requests_in evs2.
Proof.
  induction evs1 as [| [r | o | line] evs1 IH]; cbn; now rewrite ?IH.
Qed.

Lemma prints_in_app (evs1 evs2 : list event) :
  prints_in (evs1 ++ evs2) = prints_in evs1 ++ prints_in evs2.
Proof.
  induction evs1 as [| [r | o | line] evs1 IH]; cbn; now rewrite ?IH.
Qed.

Lemma http_events_app (evs1 evs2 : list event) :
  http_events (evs1 ++ evs2) = http_events evs1 ++ http_events evs2.
Proof. apply filter_app. Qed.

Lemma requests_in_lookup (req : request) (o : http_outcome) :
  requests_in (lookup_events req o) = [req].
Proof. unfold lookup_events. now destruct (lookup_error o). Qed.

Lemma http_events_lookup (req : request) (o : http_outcome) :
  http_events (lookup_events req o) = [EvRequest req; EvResponse o].
Proof. unfold lookup_events. now destruct (lookup_error o). Qed.

(** ** Unguarded accesses *)

Lemma py_getitem_error (v : pyval) (e : exn) :
  py_getitem v "items" = Raise e -> access_error e.
Proof.
  destruct v; cbn; try (intros [= <-]; left; eauto).
  destruct (dict_get "items" d); [discriminate |].
  intros [= <-]. now right.
Qed.

Lemma list_extend_error (items : list pyval) (v : pyval) (e : exn) :
  list_extend items v = Raise e -> access_error e.
Proof.
  unfold list_extend.
  destruct v; cbn; try discriminate; intros [= <-]; left; eauto.
Qed.

Lemma access_error_not_caught (e : exn) :
  access_error e -> is_RequestException e = false.
Proof. intros [[msg ->] | ->]; reflexivity. Qed.

Lemma lacks_items_getitem (v : pyval) :
  lacks_items v -> forall x, py_getitem v "items" <> Return x.
Proof.
  intros [-> | (d & -> & Hd)] x; cbn; [discriminate |].
  now rewrite Hd.
Qed.

Lemma succeeds_with_status (r : Response) :
  200 <= status_code r < 300 ->
  (400 <=? status_code r) && (status_code r <? 600) = false.
Proof. intros Hst. apply andb_false_iff. left. apply Z.leb_gt. lia. Qed.

Lemma succeeds_with_value (o : http_outcome) (l : list pyval) :
  succeeds_with o l ->
  py_getitem (lookup_value o) "items" = Return (PList l).
Proof.
  intros (r & d & -> & Hst & Hbody & Hitems). cbn.
  rewrite (succeeds_with_status r Hst), Hbody. cbn. now rewrite Hitems.
Qed.

Lemma succeeds_with_quiet (o : http_outcome) (l : list pyval) :
  succeeds_with o l -> lookup_error o = None.
Proof.
  intros (r & d & -> & Hst & Hbody & _). cbn.
  now rewrite (succeeds_with_status r Hst), Hbody.
Qed.

(** ** The loop *)

(** The exchange after the one at [n + i] is the [i]-th after [S n]. *)
Ltac shift_index :=
  repeat match goal with
         | |- context [(S ?n + ?i)%nat] =>
             replace (S n + i)%nat with (n + S i)%nat by lia
         end.

Section Loop.

Variable server : remote.

Lemma requests_in_loop (queries : list string) :
  forall n, requests_in (loop_events server n queries) = map item_request queries.
Proof.
  induction queries as [| query rest IH]; intros n; cbn [loop_events map].
  - reflexivity.
  - now rewrite requests_in_app, requests_in_lookup, IH.
Qed.

Lemma http_events_loop (queries : list string) :
  forall n, http_events (loop_events server n queries) = exchanges server n queries.
Proof.
  induction queries as [| query rest IH]; intros n; cbn [loop_events exchanges].
  - reflexivity.
  - now rewrite http_events_app, http_events_lookup, IH.
Qed.

Lemma loop_result_le (queries : list string) :
  forall n items,
    (snd (loop_result server n queries items) <= List.length queries)%nat.
Proof.
  induction queries as [| query rest IH]; intros n items; cbn; [lia |].
  destruct (py_getitem _ _) as [found | e]; cbn; [| lia].
  destruct (list_extend items found) as [items' | e]; cbn; [| lia].
  specialize (IH (S n) items').
  destruct (loop_result server (S n) rest items'); cbn in *. lia.
Qed.

Lemma loop_result_return (queries : list string) :
  forall n items out,
    fst (loop_result server n queries items) = Return out ->
    snd (loop_result server n queries items) = List.length queries.
Proof.
  induction queries as [| query rest IH]; intros n items out; cbn; [reflexivity |].
  destruct (py_getitem _ _) as [found | e]; cbn; [| discriminate].
  destruct (list_extend items found) as [items' | e]; cbn; [| discriminate].
  specialize (IH (S n) items' out).
  destruct (loop_result server (S n) rest items'); cbn in *.
  intros H. now rewrite IH.
Qed.

(** The loop can only end in the error of an unguarded access. *)
Lemma loop_result_raise (queries : list string) :
  forall n items e,
    fst (loop_result server n queries items) = Raise e -> access_error e.
Proof.
  induction queries as [| query rest IH]; intros n items e; cbn; [discriminate |].
  destruct (py_getitem _ _) as [found | e'] eqn:Hget; cbn.
  - destruct (list_extend items found) as [items' | e'] eqn:Hext; cbn.
    + specialize (IH (S n) items' e).
      destruct (loop_result server (S n) rest items'); cbn in *. exact IH.
    + intros [= <-]. eapply list_extend_error; eauto.
  - intros [= <-]. eapply py_getitem_error; eauto.
Qed.

Lemma loop_result_concat (queries : list string) :
  forall (responses : list (list pyval)) (n : nat) (items : list pyval),
    List.length responses = List.length queries ->
    (forall i query l,
        nth_error queries i = Some query ->
        nth_error responses i = Some l ->
        succeeds_with (server (n + i)%nat (item_request query)) l) ->
    loop_result server n queries items =
      (Return (items ++ List.concat responses), List.length queries).
Proof.
  induction queries as [| query rest IH]; intros responses n items Hlen Hok.
  - destruct responses; [| discriminate]. cbn. now rewrite app_nil_r.
  - destruct responses as [| l responses]; [discriminate |].
    cbn [loop_result].
    rewrite (succeeds_with_value _ l).
    + cbn. rewrite (IH responses (S n) (items ++ l)).
      * now rewrite <- app_assoc.
      * cbn in Hlen. lia.
      * intros i q l' Hq Hl. shift_index. now apply Hok.
    + specialize (Hok 0%nat query l eq_refl eq_refl).
      now rewrite Nat.add_0_r in Hok.
Qed.

Lemma loop_result_succeeds (queries : list string) :
  forall (n : nat) (items : list pyval),
    (forall i query,
        nth_error queries i = Some query ->
        exists l, succeeds_with (server (n + i)%nat (item_request query)) l) ->
    exists out,
      loop_result server n queries items = (Return out, List.length queries).
Proof.
  induction queries as [| query rest IH]; intros n items Hok.
  - now exists items.
  - destruct (Hok 0%nat query eq_refl) as [l Hl].
    rewrite Nat.add_0_r in Hl.
    cbn [loop_result]. rewrite (succeeds_with_value _ l Hl). cbn.
    destruct (IH (S n) (items ++ l)) as [out Hout].
    + intros i q Hq. shift_index. now apply Hok.
    + rewrite Hout. now exists out.
Qed.

Lemma loop_events_succeeds (queries : list string) :
  forall n : nat,
    (forall i query,
        nth_error queries i = Some query ->
        exists l, succeeds_with (server (n + i)%nat (item_request query)) l) ->
    loop_events server n queries = exchanges server n queries.
Proof.
  induction queries as [| query rest IH]; intros n Hok; [reflexivity |].
  cbn [loop_events exchanges].
  rewrite IH.
  - destruct (Hok 0%nat query eq_refl) as [l Hl].
    rewrite Nat.add_0_r in Hl.
    unfold lookup_events. now rewrite (succeeds_with_quiet _ l Hl).
  - intros i q Hq. shift_index. now apply Hok.
Qed.

Lemma loop_result_stops (queries : list string) :
  forall (n : nat) (items : list pyval) (i : nat) (query : string),
    nth_error queries i = Some query ->
    (forall x,
        py_getitem (lookup_value (server (n + i)%nat (item_request query))) "items"
        <> Return x) ->
    exists e, fst (loop_result server n queries items) = Raise e.
Proof.
  induction queries as [| q rest IH]; intros n items i query Hi Hbad.
  - destruct i; discriminate.
  - cbn [loop_result].
    destruct (py_getitem (lookup_value (server n (item_request q))) "items")
      as [found | e] eqn:Hget; [| now exists e].
    destruct (list_extend items found) as [items' | e]; [| now exists e].
    destruct i as [| i].
    + injection Hi as <-. rewrite Nat.add_0_r in Hbad.
      now destruct (Hbad found).
    + destruct (IH (S n) items' i query Hi) as [e He].
      * shift_index. exact Hbad.
      * exists e. destruct (loop_result server (S n) rest items'). exact He.
Qed.

End Loop.

(** The loop reaches every query whose earlier lookups succeeded. *)
Lemma loop_result_reaches (server : remote) (queries : list string) :
  forall (n : nat) (items : list pyval) (i : nat) (query : string),
    nth_error queries i = Some query ->
    (forall j q, (j < i)%nat -> nth_error queries j = Some q ->
                 exists l, succeeds_with (server (n + j)%nat (item_request q)) l) ->
    (i < snd (loop_result server n queries items))%nat.
Proof.
  induction queries as [| q rest IH]; intros n items i query Hi Hpre.
  - destruct i; discriminate.
  - cbn [loop_result]. destruct i as [| i].
    + destruct (py_getitem _ _) as [found | e]; cbn; [| lia].
      destruct (list_extend items found) as [items' | e]; cbn; [| lia].
      destruct (loop_result server (S n) rest items'); cbn. lia.
    + destruct (Hpre 0%nat q ltac:(lia) eq_refl) as [l Hl].
      rewrite Nat.add_0_r in Hl.
      rewrite (succeeds_with_value _ l Hl). cbn.
      assert (Hrest : (i < snd (loop_result server (S n) rest (items ++ l)))%nat).
      { apply (IH (S n) (items ++ l) i query Hi).
        intros j q' Hj Hq'. shift_index. apply Hpre; [lia | exact Hq']. }
      destruct (loop_result server (S n) rest (items ++ l)) as [r k].
      cbn [snd] in *. lia.
Qed.

(** ** The single lookup *)

(** C5: every call to [call_vector_search] sends exactly one request, to the
    given URL, with the header [Content-Type: application/json] and a
    payload that carries the fixed defaults: [dataset_id = "mercari3m_mm"],
    [use_dense = true], [use_sparse = true], [rrf_alpha = 0.5] and
    [use_rerank = true]. *)
Theorem call_vector_search_defaults (server : remote) (url query : string)
    (rows : pyval) (w : world) :
  exists r evs req,
    call_vector_search server url query rows w =
      (r, {| calls := S (calls w); trace := trace w ++ evs |}) /\
    requests_in evs = [req] /\
    req_url req = url /\
    req_headers req = [("Content-Type", "application/json")] /\
    request_field "dataset_id" req = Some (PStr "mercari3m_mm") /\
    request_field "use_dense" req = Some (PBool true) /\
    request_field "use_sparse" req = Some (PBool true) /\
    request_field "rrf_alpha" req = Some (PFloat (1 # 2)) /\
    request_field "use_rerank" req = Some (PBool true).
Proof.
  rewrite call_vector_search_run.
  eexists _, _, (search_request url query rows).
  split; [reflexivity |].
  split; [apply requests_in_lookup |].
  repeat split.
Qed.

(** C6: the ["query"] field of the payload [call_vector_search] sends is the
    input string itself, whatever that string is: the one request of the
    call carries [query] unchanged as a JSON string. *)
Theorem call_vector_search_query_field (server : remote) (url query : string)
    (rows : pyval) (w : world) :
  exists r evs req,
    call_vector_search server url query rows w =
      (r, {| calls := S (calls w); trace := trace w ++ evs |}) /\
    requests_in evs = [req] /\
    request_field "query" req = Some (PStr query).
Proof.
  rewrite call_vector_search_run.
  eexists _, _, (search_request url query rows).
  split; [reflexivity |].
  split; [apply requests_in_lookup | reflexivity].
Qed.




(** The three kinds of failure, run. *)
Example call_vector_search_on_500 :
  call_vector_search failing_server endpoint "cups" (PInt 3) w0 =
    (Return PNone,
     {| calls := 1;
        trace := [ EvRequest (item_request "cups");
                   EvResponse (failing_server 0%nat (item_request "cups"));
                   error_line (HTTPError 500) ] |}).
Proof. reflexivity. Qed.

Example call_vector_search_on_timeout :
  fst (call_vector_search (fun _ _ => Fails ReadTimeout) endpoint "cups" PNone w0) =
    Return PNone.
Proof. reflexivity. Qed.

Example call_vector_search_on_bad_json :
  prints_in (trace (snd (call_vector_search
                           (fun _ _ => Responds {| status_code := 200;
                                                   json_body := None |})
                           endpoint "cups" PNone w0))) =
    [[Lit "Error calling the API: "; FmtExn JSONDecodeError]].
Proof. reflexivity. Qed.

(** ** The fan-out tool *)

(** C9: on the empty list [find_shopping_items] makes no exchange, prints
    its summary of zero items and returns the empty list. *)
Theorem find_shopping_items_nil (server : remote) (w : world) :
  find_shopping_items server [] w =
    (Return (PList []),
     {| calls := calls w;
        trace := trace w ++
                 [ EvPrint [Lit "-----"];
                   EvPrint [Lit "User queries: "; Fmt (PList [])];
                   EvPrint [Lit "Found: "; Fmt (PInt 0); Lit " items"];
                   EvPrint [Lit "-----"] ] |}) /\
  requests_in (trace (snd (find_shopping_items server [] w))) = requests_in (trace w).
Proof.
  rewrite find_shopping_items_run. cbn.
  rewrite Nat.add_0_r. split; [reflexivity |].
  rewrite requests_in_app. cbn. apply app_nil_r.
Qed.

(** C10: whenever [find_shopping_items] returns, the value is a bare list,
    the items themselves: it is not a dict, and asking it for ["status"] or
    for any other key is a [TypeError]. *)
Theorem find_shopping_items_returns_list (server : remote)
    (queries : list string) (w w' : world) (v : pyval) :
  find_shopping_items server queries w = (Return v, w') ->
  (exists items, v = PList items) /\
  (forall d, v <> PDict d) /\
  (forall k, exists msg, py_getitem v k = Raise (TypeError msg)).
Proof.
  rewrite find_shopping_items_run.
  destruct (loop_result server (calls w) queries []) as [[items | e] k];
    [| discriminate].
  intros [= <- _].
  split; [now exists items |].
  split; [discriminate |].
  intros key. cbn. eauto.
Qed.

Lemma find_shopping_items_returns_list_witness :
  (exists items, PList (people_cups ++ animal_cups) = PList items) /\
  (forall d, PList (people_cups ++ animal_cups) <> PDict d) /\
  (forall k, exists msg,
      py_getitem (PList (people_cups ++ animal_cups)) k = Raise (TypeError msg)).
Proof.
  apply (find_shopping_items_returns_list cups_server cups w0
           (snd (find_shopping_items cups_server cups w0))).
  reflexivity.
Defined.

(** C1, as stated, fails: when the first of two lookups fails, the loop
    breaks on [result["items"]] and the second query is never looked up. *)
Lemma find_shopping_items_stops_after_failure :
  find_shopping_items failing_server cups w0 =
    (Raise (TypeError "'NoneType' object is not subscriptable"),
     {| calls := 1;
        trace := [ EvRequest (item_request "Cups with dancing people");
                   EvResponse (failing_server 0%nat
                                 (item_request "Cups with dancing people"));
                   EvPrint [Lit "Error calling the API: "; FmtExn (HTTPError 500)] ] |}) /\
  requests_in (trace (snd (find_shopping_items failing_server cups w0)))
    = [item_request "Cups with dancing people"] /\
  requests_in (trace (snd (find_shopping_items failing_server cups w0)))
    <> map item_request cups.
Proof.
  split; [reflexivity |].
  split; [reflexivity |].
  cbn. discriminate.
Qed.

(** C1, amended: when every lookup succeeds, [find_shopping_items] makes
    exactly one call per query, in the order of the input list, and
    strictly one after the other: in the trace each request is followed by
    its own response before the next request is sent. *)
Theorem find_shopping_items_one_call_per_query (server : remote)
    (queries : list string) (w : world) :
  (forall i query,
      nth_error queries i = Some query ->
      exists l, succeeds_with (server (calls w + i)%nat (item_request query)) l) ->
  exists r evs,
    find_shopping_items server queries w =
      (r, {| calls := calls w + List.length queries; trace := trace w ++ evs |}) /\
    requests_in evs = map item_request queries /\
    http_events evs = exchanges server (calls w) queries.
Proof.
  intros Hok. rewrite find_shopping_items_run.
  destruct (loop_result_succeeds server queries (calls w) [] Hok) as [out Hout].
  rewrite Hout, firstn_all.
  eexists _, _. split; [reflexivity |].
  split.
  - now rewrite requests_in_app, requests_in_loop, app_nil_r.
  - now rewrite http_events_app, http_events_loop, app_nil_r.
Qed.

Lemma find_shopping_items_one_call_per_query_witness :
  exists r evs,
    find_shopping_items cups_server cups w0 =
      (r, {| calls := calls w0 + List.length cups; trace := trace w0 ++ evs |}) /\
    requests_in evs = map item_request cups /\
    http_events evs = exchanges cups_server (calls w0) cups.
Proof.
  apply (find_shopping_items_one_call_per_query cups_server cups w0).
  intros [| [| i]] query Hq; cbn in Hq; try discriminate.
  - exists people_cups. eexists _, _. cbn. repeat split; cbn; lia.
  - exists animal_cups. eexists _, _. cbn. repeat split; cbn; lia.
  - now destruct i.
Defined.

(** Whatever the service answers, the calls made are those for a prefix of
    the queries, in order and one after the other; the prefix is the whole
    list whenever [find_shopping_items] returns. *)
Lemma find_shopping_items_calls_prefix (server : remote)
    (queries : list string) (w : world) :
  exists r k evs,
    find_shopping_items server queries w =
      (r, {| calls := calls w + k; trace := trace w ++ evs |}) /\
    (k <= List.length queries)%nat /\
    requests_in evs = map item_request (firstn k queries) /\
    http_events evs = exchanges server (calls w) (firstn k queries) /\
    (forall v, r = Return v -> k = List.length queries).
Proof.
  rewrite find_shopping_items_run.
  pose proof (loop_result_le server queries (calls w) []) as Hle.
  pose proof (loop_result_return server queries (calls w) []) as Hret.
  destruct (loop_result server (calls w) queries []) as [[items | e] k];
    cbn in Hle, Hret; eexists _, k, _; (split; [reflexivity |]);
    (split; [exact Hle |]).
  - split; [now rewrite requests_in_app, requests_in_loop, app_nil_r |].
    split; [now rewrite http_events_app, http_events_loop, app_nil_r |].
    intros _ _. now apply (Hret items).
  - split; [apply requests_in_loop |].
    split; [apply http_events_loop |].
    discriminate.
Qed.

(** C2: when every lookup succeeds, [find_shopping_items] returns the
    concatenation of the responses' item lists, in the order of the
    queries; it has made one exchange per query and printed its summary. *)
Theorem find_shopping_items_concatenates (server : remote)
    (queries : list string) (responses : list (list pyval)) (w : world) :
  List.length responses = List.length queries ->
  (forall i query l,
      nth_error queries i = Some query ->
      nth_error responses i = Some l ->
      succeeds_with (server (calls w + i)%nat (item_request query)) l) ->
  find_shopping_items server queries w =
    (Return (PList (List.concat responses)),
     {| calls := calls w + List.length queries;
        trace := trace w ++
                 exchanges server (calls w) queries ++
                 summary queries (List.concat responses) |}).
Proof.
  intros Hlen Hok. rewrite find_shopping_items_run.
  rewrite (loop_result_concat server queries responses (calls w) [] Hlen Hok).
  rewrite firstn_all, loop_events_succeeds; [reflexivity |].
  intros i query Hq.
  destruct (nth_error responses i) as [l |] eqn:Hl.
  - exists l. now apply Hok.
  - apply nth_error_None in Hl.
    assert (i < List.length queries)%nat by (apply nth_error_Some; congruence).
    lia.
Qed.

(** The scenario of the specification: two queries, two mocked responses
    of three items each, six items in the order of the queries. *)
Lemma find_shopping_items_concatenates_witness :
  find_shopping_items cups_server cups w0 =
    (Return (PList (List.concat [people_cups; animal_cups])),
     {| calls := calls w0 + List.length cups;
        trace := trace w0 ++
                 exchanges cups_server (calls w0) cups ++
                 summary cups (List.concat [people_cups; animal_cups]) |}).
Proof.
  apply (find_shopping_items_concatenates cups_server cups
           [people_cups; animal_cups] w0).
  - reflexivity.
  - intros [| [| i]] query l Hq Hl; cbn in Hq, Hl; try discriminate.
    + injection Hl as <-. eexists _, _. cbn. repeat split; cbn; lia.
    + injection Hl as <-. eexists _, _. cbn. repeat split; cbn; lia.
    + now destruct i.
Defined.

Example find_shopping_items_cups :
  fst (find_shopping_items cups_server cups w0) =
    Return (PList [item "p1"; item "p2"; item "p3"; item "a1"; item "a2"; item "a3"]).
Proof. reflexivity. Qed.

(** One query returning [l]: the output is [l], in the order returned. *)
Corollary find_shopping_items_single (server : remote) (query : string)
    (l : list pyval) (w : world) :
  succeeds_with (server (calls w) (item_request query)) l ->
  fst (find_shopping_items server [query] w) = Return (PList l).
Proof.
  intros Hok. rewrite find_shopping_items_run.
  rewrite (loop_result_concat server [query] [l] (calls w) []).
  - cbn. now rewrite app_nil_r.
  - reflexivity.
  - intros [| i] q l' Hq Hl; cbn in Hq, Hl.
    + injection Hq as <-. injection Hl as <-. now rewrite Nat.add_0_r.
    + now destruct i.
Qed.

(** Two queries returning [l1] and [l2]: the output is [l1 ++ l2], with
    [length l1 + length l2] items. *)
Corollary find_shopping_items_pair (server : remote) (query1 query2 : string)
    (l1 l2 : list pyval) (w : world) :
  succeeds_with (server (calls w) (item_request query1)) l1 ->
  succeeds_with (server (S (calls w)) (item_request query2)) l2 ->
  fst (find_shopping_items server [query1; query2] w) = Return (PList (l1 ++ l2)) /\
  List.length (l1 ++ l2) = (List.length l1 + List.length l2)%nat.
Proof.
  intros Hok1 Hok2. split; [| apply length_app].
  rewrite find_shopping_items_run.
  rewrite (loop_result_concat server [query1; query2] [l1; l2] (calls w) []).
  - cbn. now rewrite app_nil_r.
  - reflexivity.
  - intros [| [| i]] q l' Hq Hl; cbn in Hq, Hl.
    + injection Hq as <-. injection Hl as <-. now rewrite Nat.add_0_r.
    + injection Hq as <-. injection Hl as <-. now rewrite Nat.add_1_r.
    + now destruct i.
Qed.

(** C4: when the lookup for some query returns [None] or a response without
    the ["items"] key, [find_shopping_items] ends in an uncaught [TypeError]
    or [KeyError]: it returns no list and prints no summary, the only
    events being those of the lookups made until it broke. *)
Theorem find_shopping_items_unguarded (server : remote)
    (queries : list string) (w : world) :
  (exists i query v,
      nth_error queries i = Some query /\
      lookup server (calls w + i) query = Return v /\
      lacks_items v) ->
  exists e k,
    find_shopping_items server queries w =
      (Raise e,
       {| calls := calls w + k;
          trace := trace w ++ loop_events server (calls w) (firstn k queries) |}) /\
    access_error e /\
    is_RequestException e = false.
Proof.
  intros (i & query & v & Hq & Hv & Hlack).
  rewrite lookup_eq in Hv. injection Hv as <-.
  rewrite find_shopping_items_run.
  destruct (loop_result_stops server queries (calls w) [] i query Hq
              (lacks_items_getitem _ Hlack)) as [e He].
  pose proof (loop_result_raise server queries (calls w) [] e He) as Hacc.
  destruct (loop_result server (calls w) queries []) as [r k]; cbn in He; subst r.
  exists e, k. split; [reflexivity |]. split; [exact Hacc |].
  now apply access_error_not_caught.
Qed.

Lemma find_shopping_items_unguarded_witness :
  exists e k,
    find_shopping_items no_items_server cups w0 =
      (Raise e,
       {| calls := calls w0 + k;
          trace := trace w0 ++ loop_events no_items_server (calls w0) (firstn k cups) |}) /\
    access_error e /\
    is_RequestException e = false.
Proof.
  apply (find_shopping_items_unguarded no_items_server cups w0).
  exists 1%nat, "Cups with dancing animals", (PDict [("error", PStr "bad query")]).
  split; [reflexivity |].
  split; [reflexivity |].
  right. exists [("error", PStr "bad query")]. split; reflexivity.
Defined.

(** The two ways of breaking, run: a failed lookup, and a response without
    items. *)
Example find_shopping_items_on_none :
  fst (find_shopping_items failing_server cups w0) =
    Raise (TypeError "'NoneType' object is not subscriptable").
Proof. reflexivity. Qed.

Example find_shopping_items_on_missing_key :
  find_shopping_items no_items_server cups w0 =
    (Raise (KeyError "items"),
     {| calls := 1;
        trace := [ EvRequest (item_request "Cups with dancing people");
                   EvResponse (no_items_server 0%nat
                                 (item_request "Cups with dancing people")) ] |}).
Proof. reflexivity. Qed.

(** C7, as stated, fails: when the first of two lookups fails, the loop
    breaks before the second query, so no call, and no row limit, is made
    for it. *)
Lemma find_shopping_items_no_call_for_second_query :
  nth_error cups 1 = Some "Cups with dancing animals" /\
  requests_in (trace (snd (find_shopping_items failing_server cups w0)))
    = [search_request endpoint "Cups with dancing people" (PInt 3)] /\
  nth_error (requests_in (trace (snd (find_shopping_items failing_server cups w0)))) 1
    = None /\
  Forall (fun req => request_field "query" req
                     <> Some (PStr "Cups with dancing animals"))
         (requests_in (trace (snd (find_shopping_items failing_server cups w0)))).
Proof.
  split; [reflexivity |].
  split; [reflexivity |].
  split; [reflexivity |].
  cbn. constructor; [discriminate | constructor].
Qed.

(** C7, amended: for every query of the input list that the loop reaches,
    that is every query whose earlier lookups all succeeded, the call
    [find_shopping_items] makes for it, the one at the position of the
    query, is [call_vector_search]'s request for that query with the row
    limit 3; and every call made at all carries the row limit 3. *)
Theorem find_shopping_items_row_limit_per_query (server : remote)
    (queries : list string) (w : world) (i : nat) (query : string) :
  nth_error queries i = Some query ->
  (forall j q, (j < i)%nat -> nth_error queries j = Some q ->
               exists l, succeeds_with (server (calls w + j)%nat (item_request q)) l) ->
  exists r k evs req,
    find_shopping_items server queries w =
      (r, {| calls := calls w + k; trace := trace w ++ evs |}) /\
    nth_error (requests_in evs) i = Some req /\
    req = search_request endpoint query (PInt 3) /\
    request_field "query" req = Some (PStr query) /\
    request_field "rows" req = Some (PInt 3) /\
    Forall (fun req' => request_field "rows" req' = Some (PInt 3)) (requests_in evs).
Proof.
  intros Hi Hpre. rewrite find_shopping_items_run.
  pose proof (loop_result_reaches server queries (calls w) [] i query Hi Hpre) as Hreach.
  assert (Hrows : forall qs,
             Forall (fun req => request_field "rows" req = Some (PInt 3))
                    (map item_request qs)).
  { intros qs. apply Forall_forall. intros req Hin.
    apply in_map_iff in Hin. destruct Hin as (q & <- & _). reflexivity. }
  assert (Hnth : forall k, (i < k)%nat ->
             nth_error (map item_request (firstn k queries)) i
             = Some (item_request query)).
  { intros k Hk. rewrite nth_error_map, nth_error_firstn.
    destruct (Nat.ltb_spec i k) as [_ |]; [| lia]. now rewrite Hi. }
  destruct (loop_result server (calls w) queries []) as [[items | e] k];
    cbn in Hreach; eexists _, k, _, (item_request query);
    (split; [reflexivity |]).
  - rewrite requests_in_app, requests_in_loop, app_nil_r.
    split; [now apply Hnth |]. repeat split. apply Hrows.
  - rewrite requests_in_loop.
    split; [now apply Hnth |]. repeat split. apply Hrows.
Qed.

Lemma find_shopping_items_row_limit_per_query_witness :
  exists r k evs req,
    find_shopping_items cups_server cups w0 =
      (r, {| calls := calls w0 + k; trace := trace w0 ++ evs |}) /\
    nth_error (requests_in evs) 1 = Some req /\
    req = search_request endpoint "Cups with dancing animals" (PInt 3) /\
    request_field "query" req = Some (PStr "Cups with dancing animals") /\
    request_field "rows" req = Some (PInt 3) /\
    Forall (fun req' => request_field "rows" req' = Some (PInt 3)) (requests_in evs).
Proof.
  apply (find_shopping_items_row_limit_per_query cups_server cups w0 1
           "Cups with dancing animals").
  - reflexivity.
  - intros [| j] q Hj Hq; [| lia].
    injection Hq as <-. exists people_cups.
    eexists _, _. cbn. repeat split; cbn; lia.
Defined.

(** * Part 3: further properties of the code *)

(** ** The single lookup, whatever the service answers *)

Lemma lookup_error_value (o : http_outcome) (e : exn) :
  lookup_error o = Some e -> lookup_value o = PNone /\ is_RequestException e = true.
Proof.
  destruct o as [t | r]; cbn.
  - intros [= <-]. now split.
  - destruct ((400 <=? status_code r) && (status_code r <? 600)).
    + intros [= <-]. now split.
    + destruct (json_body r); [discriminate |]. intros [= <-]. now split.
Qed.

(** X2: of the response's status, only whether it is 4xx or 5xx matters.
    Two responses with the same body and any two statuses outside 400..599
    (200 and 300, say) are handled alike: [call_vector_search] returns the
    same value and prints the same lines for both. *)
Theorem call_vector_search_status_only_4xx_5xx (server1 server2 : remote)
    (url query : string) (rows : pyval) (w : world) (r1 r2 : Response) :
  server1 (calls w) (search_request url query rows) = Responds r1 ->
  server2 (calls w) (search_request url query rows) = Responds r2 ->
  ~ (400 <= status_code r1 < 600) ->
  ~ (400 <= status_code r2 < 600) ->
  json_body r1 = json_body r2 ->
  fst (call_vector_search server1 url query rows w)
    = fst (call_vector_search server2 url query rows w) /\
  prints_in (trace (snd (call_vector_search server1 url query rows w)))
    = prints_in (trace (snd (call_vector_search server2 url query rows w))).
Proof.
  intros Ho1 Ho2 Hst1 Hst2 Hbody.
  assert (Hok : forall r, ~ (400 <= status_code r < 600) ->
                 (400 <=? status_code r) && (status_code r <? 600) = false).
  { intros r Hst. apply andb_false_iff.
    destruct (Z.leb_spec 400 (status_code r)); [| now left].
    right. apply Z.ltb_ge. lia. }
  rewrite !call_vector_search_run, Ho1, Ho2. cbn [fst snd trace].
  unfold lookup_events, lookup_value, lookup_error.
  rewrite (Hok r1 Hst1), (Hok r2 Hst2), Hbody.
  split; [reflexivity |].
  rewrite !prints_in_app. now destruct (json_body r2).
Qed.

Lemma call_vector_search_status_only_4xx_5xx_witness :
  fst (call_vector_search (fun _ _ => ok_response []) endpoint "cups" (PInt 3) w0)
    = fst (call_vector_search choices_server endpoint "cups" (PInt 3) w0) /\
  prints_in (trace (snd (call_vector_search (fun _ _ => ok_response [])
                           endpoint "cups" (PInt 3) w0)))
    = prints_in (trace (snd (call_vector_search choices_server
                               endpoint "cups" (PInt 3) w0))).
Proof.
  apply (call_vector_search_status_only_4xx_5xx
           (fun _ _ => ok_response []) choices_server endpoint "cups" (PInt 3) w0
           {| status_code := 200; json_body := Some (PDict [("items", PList [])]) |}
           {| status_code := 300; json_body := Some (PDict [("items", PList [])]) |}).
  - reflexivity.
  - reflexivity.
  - cbn. lia.
  - cbn. lia.
  - reflexivity.
Defined.

(** X3: the status is checked before the body is read.  A 4xx or 5xx
    response is reported as the [HTTPError] of its status and gives [None]
    whatever its body: the JSON body of an error response is dropped. *)
Theorem call_vector_search_drops_error_body (server : remote) (url query : string)
    (rows : pyval) (w : world) (r : Response) :
  server (calls w) (search_request url query rows) = Responds r ->
  400 <= status_code r < 600 ->
  call_vector_search server url query rows w =
    (Return PNone,
     {| calls := S (calls w);
        trace := trace w ++
                 [ EvRequest (search_request url query rows);
                   EvResponse (Responds r);
                   EvPrint [Lit "Error calling the API: ";
                            FmtExn (HTTPError (status_code r))] ] |}).
Proof.
  intros Ho Hst. rewrite call_vector_search_run, Ho.
  unfold lookup_events, lookup_value, lookup_error, error_line.
  replace ((400 <=? status_code r) && (status_code r <? 600)) with true;
    [reflexivity |].
  symmetry. apply andb_true_iff. split; [apply Z.leb_le | apply Z.ltb_lt]; lia.
Qed.

(** A service that rejects a query with a 400 and a JSON explanation. *)
Lemma call_vector_search_drops_error_body_witness :
  call_vector_search
    (fun _ _ => Responds {| status_code := 400;
                            json_body := Some (PDict [("error", PStr "bad query")]) |})
    endpoint "cups" PNone w0 =
    (Return PNone,
     {| calls := S (calls w0);
        trace := trace w0 ++
                 [ EvRequest (search_request endpoint "cups" PNone);
                   EvResponse (Responds
                     {| status_code := 400;
                        json_body := Some (PDict [("error", PStr "bad query")]) |});
                   EvPrint [Lit "Error calling the API: ";
                            FmtExn (HTTPError
                              (status_code
                                 {| status_code := 400;
                                    json_body := Some (PDict [("error", PStr "bad query")]) |}))] ] |}).
Proof.
  apply (call_vector_search_drops_error_body
           (fun _ _ => Responds {| status_code := 400;
                                   json_body := Some (PDict [("error", PStr "bad query")]) |})
           endpoint "cups" PNone w0).
  - reflexivity.
  - cbn. lia.
Defined.

(** X4: the body of the request is a JSON object of exactly seven fields,
    in the order of the source, and its ["rows"] field is the [rows]
    argument as given, [None] included. *)
Theorem call_vector_search_payload_fields (server : remote) (url query : string)
    (rows : pyval) (w : world) :
  exists r evs req d,
    call_vector_search server url query rows w =
      (r, {| calls := S (calls w); trace := trace w ++ evs |}) /\
    requests_in evs = [req] /\
    req_data req = json_dumps (PDict d) /\
    map fst d = [ "query"; "rows"; "dataset_id"; "use_dense"; "use_sparse";
                  "rrf_alpha"; "use_rerank" ] /\
    request_field "rows" req = Some rows.
Proof.
  rewrite call_vector_search_run.
  eexists _, _, (search_request url query rows), _.
  split; [reflexivity |].
  split; [apply requests_in_lookup |].
  split; [reflexivity |].
  split; reflexivity.
Qed.

(** ** The loop, step by step *)

Lemma getitem_quiet (o : http_outcome) (x : pyval) :
  py_getitem (lookup_value o) "items" = Return x -> lookup_error o = None.
Proof.
  destruct (lookup_error o) as [e |] eqn:Herr; [| reflexivity].
  destruct (lookup_error_value o e Herr) as [-> _]. discriminate.
Qed.

Lemma lookup_events_quiet (req : request) (o : http_outcome) :
  lookup_error o = None -> lookup_events req o = [EvRequest req; EvResponse o].
Proof. unfold lookup_events. now intros ->. Qed.

Lemma exchanges_http (server : remote) (queries : list string) :
  forall n ev, In ev (exchanges server n queries) -> is_http ev = true.
Proof.
  induction queries as [| query rest IH]; intros n ev; cbn; [tauto |].
  intros [<- | [<- | Hin]]; [reflexivity | reflexivity | eauto].
Qed.

Lemma loop_events_app (server : remote) (qs1 qs2 : list string) :
  forall n,
    loop_events server n (qs1 ++ qs2) =
    loop_events server n qs1 ++ loop_events server (n + List.length qs1) qs2.
Proof.
  induction qs1 as [| query rest IH]; intros n; cbn [loop_events app List.length].
  - now rewrite Nat.add_0_r.
  - rewrite IH, <- app_assoc. now rewrite Nat.add_succ_r.
Qed.

(** The list the loop starts from only prefixes what it returns. *)
Lemma loop_result_acc (server : remote) (queries : list string) :
  forall n items,
    loop_result server n queries items =
      (match fst (loop_result server n queries []) with
       | Return out => Return (items ++ out)
       | Raise e => Raise e
       end,
       snd (loop_result server n queries [])).
Proof.
  induction queries as [| query rest IH]; intros n items; cbn [loop_result].
  - cbn. now rewrite app_nil_r.
  - destruct (py_getitem _ _) as [found | e]; [| reflexivity].
    unfold list_extend.
    destruct (py_iter found) as [l | e]; [| reflexivity].
    cbn [app].
    rewrite (IH (S n) (items ++ l)), (IH (S n) l).
    destruct (loop_result server (S n) rest []) as [[out | e] k]; cbn.
    + now rewrite app_assoc.
    + reflexivity.
Qed.

Lemma loop_result_app (server : remote) (qs1 qs2 : list string) :
  forall n items,
    loop_result server n (qs1 ++ qs2) items =
      match loop_result server n qs1 items with
      | (Return items', k1) =>
          (fst (loop_result server (n + k1) qs2 items'),
           (k1 + snd (loop_result server (n + k1) qs2 items'))%nat)
      | (Raise e, k1) => (Raise e, k1)
      end.
Proof.
  induction qs1 as [| query rest IH]; intros n items; cbn [loop_result app].
  - rewrite Nat.add_0_r. now destruct (loop_result server n qs2 items).
  - destruct (py_getitem _ _) as [found | e]; [| reflexivity].
    destruct (list_extend items found) as [items' | e]; [| reflexivity].
    rewrite IH.
    destruct (loop_result server (S n) rest items') as [[out | e] k]; cbn.
    + now rewrite Nat.add_succ_r.
    + reflexivity.
Qed.

(** Where the loop breaks: after a prefix of quiet, usable lookups, at a
    lookup whose result cannot be indexed or iterated. *)
Lemma loop_result_raise_inv (server : remote) (queries : list string) :
  forall n items e k,
    loop_result server n queries items = (Raise e, k) ->
    exists pre query post,
      queries = pre ++ query :: post /\
      k = S (List.length pre) /\
      loop_events server n pre = exchanges server n pre /\
      (py_getitem (lookup_value (server (n + List.length pre)%nat (item_request query)))
                  "items" = Raise e \/
       exists x,
         py_getitem (lookup_value (server (n + List.length pre)%nat (item_request query)))
                    "items" = Return x /\
         py_iter x = Raise e).
Proof.
  induction queries as [| q rest IH]; intros n items e k; cbn [loop_result];
    [discriminate |].
  destruct (py_getitem (lookup_value (server n (item_request q))) "items")
    as [found | e'] eqn:Hget.
  - unfold list_extend. destruct (py_iter found) as [l | e'] eqn:Hiter.
    + destruct (loop_result server (S n) rest (items ++ l)) as [r k'] eqn:Hrest.
      intros [= -> <-].
      destruct (IH (S n) (items ++ l) e k' Hrest)
        as (pre & query & post & -> & -> & Hpre & Hbreak).
      exists (q :: pre), query, post.
      split; [reflexivity |]. split; [reflexivity |].
      cbn [List.length loop_events exchanges].
      rewrite Nat.add_succ_r. split; [| exact Hbreak].
      rewrite Hpre, (lookup_events_quiet _ _ (getitem_quiet _ _ Hget)). reflexivity.
    + intros [= <- <-].
      exists [], q, rest. cbn. rewrite Nat.add_0_r.
      repeat split. right. now exists found.
  - intros [= <- <-].
    exists [], q, rest. cbn. rewrite Nat.add_0_r.
    repeat split. now left.
Qed.

Lemma loop_result_return_quiet (server : remote) (queries : list string) :
  forall n items out k,
    loop_result server n queries items = (Return out, k) ->
    loop_events server n queries = exchanges server n queries.
Proof.
  induction queries as [| q rest IH]; intros n items out k; cbn [loop_result];
    [reflexivity |].
  destruct (py_getitem (lookup_value (server n (item_request q))) "items")
    as [found | e'] eqn:Hget; [| discriminate].
  destruct (list_extend items found) as [items' | e']; [| discriminate].
  destruct (loop_result server (S n) rest items') as [r k'] eqn:Hrest.
  intros [= -> <-].
  cbn [loop_events exchanges].
  rewrite (IH (S n) items' out k' Hrest),
    (lookup_events_quiet _ _ (getitem_quiet _ _ Hget)).
  reflexivity.
Qed.

Section Breaking.

Variable server : remote.

Lemma loop_result_breaks (queries : list string) :
  forall (n : nat) (items : list pyval) (i : nat) (query : string) (e : exn),
    nth_error queries i = Some query ->
    (forall j q, (j < i)%nat -> nth_error queries j = Some q ->
                 exists l, succeeds_with (server (n + j)%nat (item_request q)) l) ->
    (py_getitem (lookup_value (server (n + i)%nat (item_request query))) "items"
       = Raise e \/
     exists x,
       py_getitem (lookup_value (server (n + i)%nat (item_request query))) "items"
         = Return x /\
       py_iter x = Raise e) ->
    loop_result server n queries items = (Raise e, S i).
Proof.
  induction queries as [| q rest IH]; intros n items i query e Hi Hpre Hbreak.
  - destruct i; discriminate.
  - destruct i as [| i].
    + injection Hi as <-. rewrite Nat.add_0_r in Hbreak. cbn [loop_result].
      destruct Hbreak as [-> | (x & -> & Hiter)]; [reflexivity |].
      unfold list_extend. now rewrite Hiter.
    + destruct (Hpre 0%nat q ltac:(lia) eq_refl) as [l Hl].
      rewrite Nat.add_0_r in Hl.
      cbn [loop_result]. rewrite (succeeds_with_value _ l Hl). cbn.
      rewrite (IH (S n) (items ++ l) i query e Hi); [reflexivity | |].
      * intros j q' Hj Hq'. shift_index. apply Hpre; [lia | exact Hq'].
      * shift_index. exact Hbreak.
Qed.

Lemma loop_result_yields (queries : list string) :
  forall (iterated : list (list pyval)) (n : nat) (items : list pyval),
    List.length iterated = List.length queries ->
    (forall i query l,
        nth_error queries i = Some query ->
        nth_error iterated i = Some l ->
        yields (lookup server (n + i) query) l) ->
    loop_result server n queries items =
      (Return (items ++ List.concat iterated), List.length queries).
Proof.
  induction queries as [| query rest IH]; intros iterated n items Hlen Hok.
  - destruct iterated; [| discriminate]. cbn. now rewrite app_nil_r.
  - destruct iterated as [| l iterated]; [discriminate |].
    cbn [loop_result].
    destruct (Hok 0%nat query l eq_refl eq_refl) as (v & x & Hv & Hget & Hiter).
    rewrite Nat.add_0_r, lookup_eq in Hv. injection Hv as <-.
    rewrite Hget. unfold list_extend. rewrite Hiter.
    rewrite (IH iterated (S n) (items ++ l)).
    + cbn. now rewrite <- app_assoc.
    + cbn in Hlen. lia.
    + intros i q l' Hq Hl. shift_index. now apply Hok.
Qed.

End Breaking.

(** What a run of [find_shopping_items] that returns, or raises, says of
    the loop. *)
Lemma find_shopping_items_return_inv (server : remote) (queries : list string)
    (w w' : world) (v : pyval) :
  find_shopping_items server queries w = (Return v, w') ->
  exists items,
    v = PList items /\
    loop_result server (calls w) queries [] = (Return items, List.length queries) /\
    w' = {| calls := calls w + List.length queries;
            trace := trace w ++
                     exchanges server (calls w) queries ++ summary queries items |}.
Proof.
  rewrite find_shopping_items_run.
  pose proof (loop_result_return server queries (calls w) []) as Hret.
  destruct (loop_result server (calls w) queries []) as [[items | e] k] eqn:Hloop;
    [| discriminate].
  cbn in Hret. rewrite (Hret items eq_refl) in *.
  intros [= <- <-]. exists items.
  split; [reflexivity |]. split; [reflexivity |].
  now rewrite firstn_all, (loop_result_return_quiet _ _ _ _ _ _ Hloop).
Qed.

Lemma find_shopping_items_raise_inv (server : remote) (queries : list string)
    (w w' : world) (e : exn) :
  find_shopping_items server queries w = (Raise e, w') ->
  exists k,
    loop_result server (calls w) queries [] = (Raise e, k) /\
    w' = {| calls := calls w + k;
            trace := trace w ++ loop_events server (calls w) (firstn k queries) |}.
Proof.
  rewrite find_shopping_items_run.
  destruct (loop_result server (calls w) queries []) as [[items | e'] k];
    [discriminate |].
  intros [= <- <-]. now exists k.
Qed.

Lemma loop_events_quiet (server : remote) (queries : list string) :
  forall n,
    (forall j q, nth_error queries j = Some q ->
                 lookup_error (server (n + j)%nat (item_request q)) = None) ->
    loop_events server n queries = exchanges server n queries.
Proof.
  induction queries as [| query rest IH]; intros n Hquiet; [reflexivity |].
  cbn [loop_events exchanges].
  rewrite IH.
  - pose proof (Hquiet 0%nat query eq_refl) as H0.
    rewrite Nat.add_0_r in H0. now rewrite (lookup_events_quiet _ _ H0).
  - intros j q Hq. shift_index. now apply Hquiet.
Qed.

Lemma prints_in_exchanges (server : remote) (queries : list string) :
  forall n, prints_in (exchanges server n queries) = [].
Proof.
  induction queries as [| query rest IH]; intros n; cbn; [reflexivity | apply IH].
Qed.

(** ** The fan-out tool: where it breaks *)

(** X5: the loop breaks at the first lookup without items.  When the
    lookups before query [i] succeed and the lookup for query [i] returns
    [None] or a dict without ["items"], [find_shopping_items] raises after
    exactly [i + 1] exchanges, a [TypeError] for [None] and a [KeyError]
    for the dict; the items found so far are lost with it, and the
    queries after [i] are not looked up. *)
Theorem find_shopping_items_breaks_at (server : remote) (queries : list string)
    (w : world) (i : nat) (query : string) (v : pyval) :
  nth_error queries i = Some query ->
  (forall j q, (j < i)%nat -> nth_error queries j = Some q ->
               exists l, succeeds_with (server (calls w + j)%nat (item_request q)) l) ->
  lookup server (calls w + i) query = Return v ->
  lacks_items v ->
  exists evs,
    find_shopping_items server queries w =
      (Raise match v with
             | PNone => TypeError "'NoneType' object is not subscriptable"
             | _ => KeyError "items"
             end,
       {| calls := calls w + S i; trace := trace w ++ evs |}) /\
    requests_in evs = map item_request (firstn (S i) queries) /\
    http_events evs = exchanges server (calls w) (firstn (S i) queries).
Proof.
  intros Hi Hpre Hv Hlack.
  rewrite lookup_eq in Hv. injection Hv as Hv.
  rewrite find_shopping_items_run.
  rewrite (loop_result_breaks server queries (calls w) [] i query
             match v with
             | PNone => TypeError "'NoneType' object is not subscriptable"
             | _ => KeyError "items"
             end Hi Hpre).
  - eexists. split; [reflexivity |].
    split; [apply requests_in_loop | apply http_events_loop].
  - left. rewrite Hv.
    destruct Hlack as [-> | (d & -> & Hd)]; cbn; [reflexivity |].
    now rewrite Hd.
Qed.

Lemma find_shopping_items_breaks_at_witness :
  exists evs,
    find_shopping_items flaky_server cups w0 =
      (Raise match PNone with
             | PNone => TypeError "'NoneType' object is not subscriptable"
             | _ => KeyError "items"
             end,
       {| calls := calls w0 + 2; trace := trace w0 ++ evs |}) /\
    requests_in evs = map item_request (firstn 2 cups) /\
    http_events evs = exchanges flaky_server (calls w0) (firstn 2 cups).
Proof.
  apply (find_shopping_items_breaks_at flaky_server cups w0 1
           "Cups with dancing animals" PNone).
  - reflexivity.
  - intros [| j] q Hj Hq; [| lia].
    injection Hq as <-. exists people_cups.
    eexists _, _. cbn. repeat split; cbn; lia.
  - reflexivity.
  - now left.
Defined.

(** X6: an ["items"] entry that cannot be iterated breaks the loop as
    well.  When the lookups before query [i] succeed and the response for
    query [i] has under ["items"] a value that is no sequence ([null], a
    number, a boolean), [find_shopping_items] raises the [TypeError] of
    [extend] after exactly [i + 1] exchanges. *)
Theorem find_shopping_items_items_not_iterable (server : remote)
    (queries : list string) (w : world) (i : nat) (query : string)
    (v x : pyval) (e : exn) :
  nth_error queries i = Some query ->
  (forall j q, (j < i)%nat -> nth_error queries j = Some q ->
               exists l, succeeds_with (server (calls w + j)%nat (item_request q)) l) ->
  lookup server (calls w + i) query = Return v ->
  py_getitem v "items" = Return x ->
  py_iter x = Raise e ->
  exists msg evs,
    e = TypeError msg /\
    find_shopping_items server queries w =
      (Raise e, {| calls := calls w + S i; trace := trace w ++ evs |}) /\
    http_events evs = exchanges server (calls w) (firstn (S i) queries) /\
    prints_in evs = [].
Proof.
  intros Hi Hpre Hv Hget Hiter.
  rewrite lookup_eq in Hv. injection Hv as Hv.
  assert (Hmsg : exists msg, e = TypeError msg).
  { destruct x; cbn in Hiter; try discriminate; injection Hiter as <-; eauto. }
  destruct Hmsg as [msg ->]. exists msg.
  rewrite find_shopping_items_run.
  pose proof (loop_result_breaks server queries (calls w) [] i query
                (TypeError msg) Hi Hpre) as Hloop.
  rewrite Hloop by (right; exists x; now rewrite Hv).
  eexists. split; [reflexivity |]. split; [reflexivity |].
  split; [apply http_events_loop |].
  rewrite loop_events_quiet; [apply prints_in_exchanges |].
  intros j q Hq. rewrite nth_error_firstn in Hq.
  destruct (Nat.ltb_spec j (S i)) as [Hj |]; [| discriminate].
  destruct (Nat.eq_dec j i) as [-> | Hne].
  - rewrite Hi in Hq. injection Hq as <-.
    apply (getitem_quiet _ x). now rewrite Hv.
  - destruct (Hpre j q ltac:(lia) Hq) as [l Hl].
    now apply (succeeds_with_quiet _ l).
Qed.

Lemma find_shopping_items_items_not_iterable_witness :
  exists msg evs,
    TypeError "'NoneType' object is not iterable" = TypeError msg /\
    find_shopping_items null_items_server cups w0 =
      (Raise (TypeError "'NoneType' object is not iterable"),
       {| calls := calls w0 + 1; trace := trace w0 ++ evs |}) /\
    http_events evs = exchanges null_items_server (calls w0) (firstn 1 cups) /\
    prints_in evs = [].
Proof.
  apply (find_shopping_items_items_not_iterable null_items_server cups w0 0
           "Cups with dancing people" (PDict [("items", PNone)]) PNone).
  - reflexivity.
  - intros j q Hj. lia.
  - reflexivity.
  - reflexivity.
  - reflexivity.
Defined.

(** ** The fan-out tool: what it returns and prints *)

(** X7: the items are taken by [extend], which accepts any iterable: when
    each lookup's ["items"] entry iterates to a list (a list to its
    elements, a string to its characters, a dict to its keys),
    [find_shopping_items] returns the concatenation of those lists after
    one exchange per query.  Neither the kind of the entry nor the number
    of items is checked against the row limit. *)
Theorem find_shopping_items_extends_any_iterable (server : remote)
    (queries : list string) (iterated : list (list pyval)) (w : world) :
  List.length iterated = List.length queries ->
  (forall i query l,
      nth_error queries i = Some query ->
      nth_error iterated i = Some l ->
      yields (lookup server (calls w + i) query) l) ->
  exists w',
    find_shopping_items server queries w = (Return (PList (List.concat iterated)), w') /\
    calls w' = (calls w + List.length queries)%nat.
Proof.
  intros Hlen Hok. rewrite find_shopping_items_run.
  rewrite (loop_result_yields server queries iterated (calls w) [] Hlen Hok).
  eexists. split; reflexivity.
Qed.

Lemma find_shopping_items_extends_any_iterable_witness :
  exists w',
    find_shopping_items kanji_items_server ["cups"] w0 =
      (Return (PList (List.concat
         [ [ PStr (String "230" (String "151" (String "165" EmptyString)));
             PStr (String "230" (String "156" (String "172" EmptyString))) ] ])),
       w') /\
    calls w' = (calls w0 + List.length ["cups"])%nat.
Proof.
  apply (find_shopping_items_extends_any_iterable kanji_items_server ["cups"]
           [ [ PStr (String "230" (String "151" (String "165" EmptyString)));
               PStr (String "230" (String "156" (String "172" EmptyString))) ] ] w0).
  - reflexivity.
  - intros [| i] query l Hq Hl; cbn in Hq, Hl.
    + injection Hl as <-.
      exists (PDict [("items", PStr two_kanji)]), (PStr two_kanji). repeat split.
    + now destruct i.
Defined.

(** A string of two three-byte characters gives two items, not six. *)
Example find_shopping_items_kanji :
  fst (find_shopping_items kanji_items_server ["cups"] w0) =
    Return (PList [ PStr (String "230" (String "151" (String "165" EmptyString)));
                    PStr (String "230" (String "156" (String "172" EmptyString))) ]).
Proof. reflexivity. Qed.

(** X8: when [find_shopping_items] returns, it has made one exchange per
    query and printed nothing but its four summary lines, after the last
    exchange; the count in the "Found" line is the length of the list
    returned, and no "Error calling the API" line has been printed. *)
Theorem find_shopping_items_summary (server : remote) (queries : list string)
    (w w' : world) (v : pyval) :
  find_shopping_items server queries w = (Return v, w') ->
  exists items,
    v = PList items /\
    calls w' = (calls w + List.length queries)%nat /\
    trace w' =
      trace w ++
      exchanges server (calls w) queries ++
      [ EvPrint [Lit "-----"];
        EvPrint [Lit "User queries: "; Fmt (PList (map PStr queries))];
        EvPrint [Lit "Found: "; Fmt (PInt (Z.of_nat (List.length items))); Lit " items"];
        EvPrint [Lit "-----"] ].
Proof.
  intros Hrun.
  destruct (find_shopping_items_return_inv server queries w w' v Hrun)
    as (items & -> & _ & ->).
  exists items. repeat split.
Qed.

Lemma find_shopping_items_summary_witness :
  exists items,
    PList (people_cups ++ animal_cups) = PList items /\
    calls (snd (find_shopping_items cups_server cups w0))
      = (calls w0 + List.length cups)%nat /\
    trace (snd (find_shopping_items cups_server cups w0)) =
      trace w0 ++
      exchanges cups_server (calls w0) cups ++
      [ EvPrint [Lit "-----"];
        EvPrint [Lit "User queries: "; Fmt (PList (map PStr cups))];
        EvPrint [Lit "Found: "; Fmt (PInt (Z.of_nat (List.length items))); Lit " items"];
        EvPrint [Lit "-----"] ].
Proof.
  apply (find_shopping_items_summary cups_server cups w0
           (snd (find_shopping_items cups_server cups w0))).
  reflexivity.
Defined.

(** X9: a reported lookup failure is always followed by the crash.  If an
    "Error calling the API" line is printed during [find_shopping_items],
    it is the last event of the call, everything before it is the
    exchanges made, and the call ends in the [TypeError] of indexing
    [None]: no summary follows and nothing is returned. *)
Theorem find_shopping_items_error_line_then_crash (server : remote)
    (queries : list string) (w w' : world) (r : outcome pyval)
    (evs : list event) (e : exn) :
  find_shopping_items server queries w = (r, w') ->
  trace w' = trace w ++ evs ->
  In (EvPrint [Lit "Error calling the API: "; FmtExn e]) evs ->
  r = Raise (TypeError "'NoneType' object is not subscriptable") /\
  exists k,
    (0 < k <= List.length queries)%nat /\
    calls w' = (calls w + k)%nat /\
    evs = exchanges server (calls w) (firstn k queries)
          ++ [EvPrint [Lit "Error calling the API: "; FmtExn e]].
Proof.
  intros Hrun Htrace Hin.
  destruct r as [v | e'].
  - exfalso.
    destruct (find_shopping_items_return_inv server queries w w' v Hrun)
      as (items & _ & _ & ->).
    cbn in Htrace. apply app_inv_head in Htrace. subst evs.
    apply in_app_or in Hin. destruct Hin as [Hin | Hin].
    + apply exchanges_http in Hin. discriminate.
    + cbn in Hin. repeat (destruct Hin as [Hin | Hin]; [discriminate |]).
      exact Hin.
  - destruct (find_shopping_items_raise_inv server queries w w' e' Hrun)
      as (k & Hloop & ->).
    cbn in Htrace. apply app_inv_head in Htrace. subst evs.
    destruct (loop_result_raise_inv server queries (calls w) [] e' k Hloop)
      as (pre & query & post & -> & -> & Hquiet & Hbreak).
    replace (S (List.length pre)) with (List.length pre + 1)%nat in * by lia.
    rewrite firstn_app_2 in *. cbn [firstn] in *.
    rewrite loop_events_app, Hquiet in Hin. cbn [loop_events] in Hin.
    rewrite app_nil_r in Hin.
    apply in_app_or in Hin. destruct Hin as [Hin | Hin];
      [apply exchanges_http in Hin; discriminate |].
    unfold lookup_events in Hin.
    destruct (lookup_error
                (server (calls w + List.length pre)%nat (item_request query)))
      as [e0 |] eqn:Herr.
    + destruct (lookup_error_value _ _ Herr) as [Hnone _].
      rewrite Hnone in Hbreak.
      assert (He0 : e0 = e).
      { destruct Hin as [Hin | [Hin | [Hin | []]]]; try discriminate.
        unfold error_line in Hin. now injection Hin. }
      subst e0.
      split.
      * destruct Hbreak as [Hbreak | (x & Hbreak & _)]; [| discriminate].
        cbn in Hbreak. now injection Hbreak as <-.
      * exists (List.length pre + 1)%nat.
        split; [rewrite length_app; cbn; lia |].
        split; [reflexivity |].
        rewrite firstn_app_2. cbn [firstn].
        rewrite loop_events_app, Hquiet. cbn [loop_events].
        unfold lookup_events. rewrite Herr, app_nil_r.
        clear. generalize (calls w) as n.
        induction pre as [| p pre IH]; intros n; cbn [exchanges app List.length].
        -- now rewrite Nat.add_0_r.
        -- rewrite <- Nat.add_succ_comm. now rewrite <- IH.
    + destruct Hin as [Hin | [Hin | []]]; discriminate.
Qed.

Lemma find_shopping_items_error_line_then_crash_witness :
  fst (find_shopping_items flaky_server cups w0)
    = Raise (TypeError "'NoneType' object is not subscriptable") /\
  exists k,
    (0 < k <= List.length cups)%nat /\
    calls (snd (find_shopping_items flaky_server cups w0)) = (calls w0 + k)%nat /\
    [ EvRequest (item_request "Cups with dancing people");
      EvResponse (ok_response people_cups);
      EvRequest (item_request "Cups with dancing animals");
      EvResponse (Responds {| status_code := 500; json_body := None |});
      EvPrint [Lit "Error calling the API: "; FmtExn (HTTPError 500)] ]
    = exchanges flaky_server (calls w0) (firstn k cups)
      ++ [EvPrint [Lit "Error calling the API: "; FmtExn (HTTPError 500)]].
Proof.
  apply (find_shopping_items_error_line_then_crash flaky_server cups w0
           (snd (find_shopping_items flaky_server cups w0))).
  - reflexivity.
  - reflexivity.
  - cbn. tauto.
Defined.

(** ** The fan-out tool: longer lists of queries *)

(** X10: looking up a longer list is looking up its parts in turn.  When
    [find_shopping_items] returns [l1] for [qs1], and returns [l2] for
    [qs2] against the service as the first call leaves it, it returns
    [l1 ++ l2] for [qs1 ++ qs2], after the exchanges of both. *)
Theorem find_shopping_items_app (server : remote) (qs1 qs2 : list string)
    (w w1 w2 : world) (l1 l2 : list pyval) (t : list event) :
  find_shopping_items server qs1 w = (Return (PList l1), w1) ->
  find_shopping_items server qs2 {| calls := calls w1; trace := t |}
    = (Return (PList l2), w2) ->
  exists w',
    find_shopping_items server (qs1 ++ qs2) w = (Return (PList (l1 ++ l2)), w') /\
    calls w' = calls w2 /\
    http_events (trace w') =
      http_events (trace w) ++
      exchanges server (calls w) qs1 ++ exchanges server (calls w1) qs2.
Proof.
  intros Hrun1 Hrun2.
  destruct (find_shopping_items_return_inv _ _ _ _ _ Hrun1)
    as (items1 & [= <-] & Hloop1 & ->).
  destruct (find_shopping_items_return_inv _ _ _ _ _ Hrun2)
    as (items2 & [= <-] & Hloop2 & ->).
  cbn [calls] in *.
  rewrite find_shopping_items_run, loop_result_app, Hloop1.
  rewrite loop_result_acc, Hloop2. cbn [fst snd].
  eexists. split; [reflexivity |]. cbn [calls trace].
  split; [lia |].
  rewrite <- length_app, firstn_all, loop_events_app.
  rewrite !http_events_app, !http_events_loop.
  f_equal. rewrite <- app_assoc. cbn. now rewrite app_nil_r.
Qed.

Lemma find_shopping_items_app_witness :
  exists w',
    find_shopping_items cups_server
      (["Cups with dancing people"] ++ ["Cups with dancing animals"]) w0
      = (Return (PList (people_cups ++ animal_cups)), w') /\
    calls w' = calls (snd (find_shopping_items cups_server
                             ["Cups with dancing animals"]
                             {| calls := 1; trace := [] |})) /\
    http_events (trace w') =
      http_events (trace w0) ++
      exchanges cups_server (calls w0) ["Cups with dancing people"] ++
      exchanges cups_server
        (calls (snd (find_shopping_items cups_server ["Cups with dancing people"] w0)))
        ["Cups with dancing animals"].
Proof.
  apply (find_shopping_items_app cups_server
           ["Cups with dancing people"] ["Cups with dancing animals"] w0
           (snd (find_shopping_items cups_server ["Cups with dancing people"] w0))
           (snd (find_shopping_items cups_server ["Cups with dancing animals"]
                   {| calls := 1; trace := [] |}))
           people_cups animal_cups []).
  - reflexivity.
  - reflexivity.
Defined.

(** X11: the tool fails fast.  When [find_shopping_items] raises for
    [qs1], it raises the same exception for [qs1 ++ qs2], in the same
    world: no query of [qs2] is looked up, whatever the service would
    answer to it. *)
Theorem find_shopping_items_fails_fast (server : remote) (qs1 qs2 : list string)
    (w w1 : world) (e : exn) :
  find_shopping_items server qs1 w = (Raise e, w1) ->
  find_shopping_items server (qs1 ++ qs2) w = (Raise e, w1).
Proof.
  intros Hrun.
  destruct (find_shopping_items_raise_inv _ _ _ _ _ Hrun) as (k & Hloop & ->).
  pose proof (loop_result_le server qs1 (calls w) []) as Hle.
  rewrite Hloop in Hle. cbn in Hle.
  rewrite find_shopping_items_run, loop_result_app, Hloop.
  rewrite firstn_app.
  replace (k - List.length qs1)%nat with 0%nat by lia.
  cbn [firstn]. now rewrite app_nil_r.
Qed.

Lemma find_shopping_items_fails_fast_witness :
  find_shopping_items flaky_server (cups ++ ["Cups with dancing robots"]) w0 =
    (Raise (TypeError "'NoneType' object is not subscriptable"),
     snd (find_shopping_items flaky_server cups w0)).
Proof.
  apply (find_shopping_items_fails_fast flaky_server cups
           ["Cups with dancing robots"] w0).
  reflexivity.
Defined.

(** ** The test driver *)

Lemma async_for_pure (events : list Event) :
  forall (t : option string) (w : world),
    async_for (map ret events) t w =
      (Return match find is_final_response events with
              | Some event =>
                  match content event with
                  | Some c =>
                      match parts c with
                      | Some (p :: _) => text p
                      | Some [] | None => t
                      end
                  | None => t
                  end
              | None => t
              end, w).
Proof.
  induction events as [| event rest IH]; intros t w; cbn [map async_for find].
  - reflexivity.
  - unfold bind, ret at 1.
    destruct (is_final_response event); [reflexivity | apply IH].
Qed.

Lemma async_for_ends_early (events more : agent_run) :
  forall (t : option string) (w : world),
    ends_early events w = true ->
    async_for (events ++ more) t w = async_for events t w.
Proof.
  induction events as [| next rest IH]; intros t w; cbn [ends_early app async_for];
    [discriminate |].
  unfold bind.
  destruct (next w) as [[event | e] w']; [| reflexivity].
  destruct (is_final_response event); [reflexivity | apply IH].
Qed.

(** X12: over a run whose steps only yield events, [test_agent] prints the
    query, then the text of the first part of the first event that is a
    final response, and returns [None].  The text printed is [None] when
    no event is a final response, when the first final response has no
    content or no parts, or when its first part has no text; events after
    the first final response, final or not, do not count. *)
Theorem test_agent_first_final_response {Agent : Type} (events : list Event)
    (query : string) (agent : Agent) (w : world) :
  test_agent (playing (map ret events)) query agent w =
    (Return PNone,
     {| calls := calls w;
        trace := trace w ++
                 [ EvPrint [Lit (String "010"%char ">>> User Query: ");
                            Fmt (PStr query)];
                   EvPrint [Lit "<<< Agent Response: ";
                            Fmt (py_text
                                   match find is_final_response events with
                                   | Some event => response_text event
                                   | None => None
                                   end)] ] |}).
Proof.
  unfold test_agent, playing. cbv zeta.
  unfold bind at 1. unfold print at 1.
  unfold bind at 1. rewrite async_for_pure.
  unfold bind, print, ret, emit, response_text. cbn [calls trace].
  rewrite <- app_assoc. reflexivity.
Qed.

(** X13: the loop of [test_agent] is left at the first final response, or
    by the first exception: the steps of the run that come after are never
    resumed, so nothing they would do (a tool call, its requests, its
    output, its exception) happens. *)
Theorem test_agent_stops_at_final_response {Agent : Type}
    (events more : agent_run) (query : string) (agent : Agent) (w : world) :
  ends_early events
    (emit [EvPrint [Lit (String "010"%char ">>> User Query: "); Fmt (PStr query)]] w)
    = true ->
  test_agent (playing (events ++ more)) query agent w =
  test_agent (playing events) query agent w.
Proof.
  intros Hend. unfold test_agent, playing. cbv zeta.
  unfold bind at 1 3. unfold print at 1 3.
  unfold bind at 1 3. now rewrite async_for_ends_early.
Qed.

(** A run that answers and would then call the tool against a failing
    service: the tool is never called. *)
Lemma test_agent_stops_at_final_response_witness :
  test_agent (playing ([ret (final_event "Here are some cups.")]
                       ++ [tool_step failing_server cups]))
    "Cups with dancing figures" tt w0 =
  test_agent (playing [ret (final_event "Here are some cups.")])
    "Cups with dancing figures" tt w0.
Proof.
  apply (test_agent_stops_at_final_response
           [ret (final_event "Here are some cups.")]
           [tool_step failing_server cups]
           "Cups with dancing figures" tt w0).
  reflexivity.
Defined.

Example test_agent_answers :
  test_agent (playing [ret partial_event; ret (final_event "Here are some cups.");
                       ret (final_event "And some mugs.")])
    "Cups with dancing figures" tt w0 =
    (Return PNone,
     {| calls := 0;
        trace := [ EvPrint [Lit (String "010"%char ">>> User Query: ");
                            Fmt (PStr "Cups with dancing figures")];
                   EvPrint [Lit "<<< Agent Response: ";
                            Fmt (PStr "Here are some cups.")] ] |}).
Proof. reflexivity. Qed.

(** The tool called in a run against a failing service, by a runtime that
    lets its exception out: the exception leaves [test_agent] too, and no
    response line is printed. *)
Example test_agent_tool_crash :
  test_agent (playing [tool_step failing_server cups; ret (final_event "Sorry.")])
    "Cups with dancing figures" tt w0 =
    (Raise (TypeError "'NoneType' object is not subscriptable"),
     {| calls := 1;
        trace := [ EvPrint [Lit (String "010"%char ">>> User Query: ");
                            Fmt (PStr "Cups with dancing figures")];
                   EvRequest (item_request "Cups with dancing people");
                   EvResponse (failing_server 0%nat
                                 (item_request "Cups with dancing people"));
                   EvPrint [Lit "Error calling the API: "; FmtExn (HTTPError 500)] ] |}).
Proof. reflexivity. Qed.
